(** * Backend/azure_open_ai_service.py: the Azure OpenAI chat wrapper

    A shallow embedding of [AzureOpenAIService] and of the properties its
    specification states about it.

    Python objects that the code shares by reference (the lists it
    appends to, the service object whose attributes [__init__] assigns)
    live in an explicit store; everything outside the file (the clock,
    the identity library, the remote endpoint) is part of an explicit
    world that each operation threads through. *)

From Stdlib Require Import String Ascii ZArith QArith_base List Lia.
From stdpp Require Import base numbers list strings.

Local Open Scope string_scope.
Local Open Scope list_scope.

(** ** Strings *)

(** [str.lower] restricted to what the comparison with ["system"] can
    observe.  Strings are sequences of bytes (UTF-8); the ASCII capitals
    are mapped to their small letters and every other byte is kept.
    Python lowers other code points too, but none of them to one of the
    letters of ["system"], so [lower s =? "system"] decides
    [s.lower() == "system"]. *)
Definition lower_ascii (c : ascii) : ascii :=
  let n := N_of_ascii c in
  if ((65 <=? n) && (n <=? 90))%N then ascii_of_N (n + 32) else c.

Fixpoint lower (s : string) : string :=
  match s with
  | EmptyString => EmptyString
  | String c rest => String (lower_ascii c) (lower rest)
  end.

(** ** Data model *)

(** References into the store. *)
Definition loc := nat.

(** A UTC instant, as [datetime.now(tz=timezone.utc)] returns it
    (microseconds since the epoch). *)
Definition Instant := Z.

(** [models.ChatbotMessage]. *)
Module ChatbotMessage.
Record t := mk { role : string; content : string; timestamp : Instant }.
End ChatbotMessage.

(** The entries of [LLMConfiguration.messages]: the code reads their
    [role] and [content]. *)
Module MessageConfiguration.
Record t := mk { role : string; content : string }.
End MessageConfiguration.

(** The dictionaries [{"role": ..., "content": ...}] sent to the remote
    endpoint. *)
Module Dict.
Record t := mk { role : string; content : string }.
End Dict.

(** [llm_configuration.AzureOpenAIConnectionInfo]. *)
Module AzureOpenAIConnectionInfo.
Record t := mk { api_version : string; endpoint : string }.
End AzureOpenAIConnectionInfo.

(** [llm_configuration.LLMConfiguration]; [messages] is a reference to a
    list object.  The two numeric parameters are handed to the remote
    call as they are. *)
Module LLMConfiguration.
Record t := mk {
  model : string;
  max_completion_tokens : Z;
  temperature : Q;
  messages : loc
}.
End LLMConfiguration.

(** [models.ChatRequest]; [history] is a reference to a list object. *)
Module ChatRequest.
Record t := mk { message : string; history : loc }.
End ChatRequest.

(** [models.ChatResponse]; [history] is a reference to a list object. *)
Module ChatResponse.
Record t := mk { message : string; history : loc }.
End ChatResponse.

(** The token provider that [get_bearer_token_provider] returns. *)
Module TokenProvider.
Record t := mk { scope : string }.
End TokenProvider.

(** The client handle that [AzureOpenAI(...)] returns. *)
Module AzureOpenAI.
Record t := mk {
  api_version : string;
  azure_endpoint : string;
  azure_ad_token_provider : TokenProvider.t
}.
End AzureOpenAI.

(** The keyword arguments of [client.chat.completions.create]. *)
Module CreateParams.
Record t := mk {
  messages : list Dict.t;
  max_tokens : Z;
  temperature : Q;
  top_p : Q;
  model : string
}.
End CreateParams.

(** The part of the remote reply the code reads:
    [response.choices[i].message.content]. *)
Module Choice.
Record t := mk { message_content : string }.
End Choice.

Module ChatCompletion.
Record t := mk { choices : list Choice.t }.
End ChatCompletion.

(** The kinds of failure of the remote call. *)
Inductive RemoteErrorKind :=
| Unauthorized | RateLimited | Timeout | InvalidResponse | Unknown.

(** Exceptions.  [ValueError] is what [__init__] raises;
    [RemoteServiceError] stands for the exception the client library
    raises from [create]; [IndexError] is [choices[0]] on an empty list;
    [AttributeError] and [TypeError] are the failures of an attribute
    read or a list operation on an object of the wrong kind. *)
Inductive Exn :=
| ValueError (msg : string)
| RemoteServiceError (kind : RemoteErrorKind)
| IndexError
| AttributeError
| TypeError.

(** What the remote endpoint does with one request. *)
Inductive RemoteOutcome :=
| RemoteRaise (kind : RemoteErrorKind)
| RemoteReturn (response : ChatCompletion.t).

(** What the file does outside of its own objects, in order. *)
Inductive Event :=
| EvDefaultAzureCredential
| EvGetBearerTokenProvider (scope : string)
| EvAzureOpenAI (api_version azure_endpoint : string)
| EvChatCompletionsCreate (client : AzureOpenAI.t) (params : CreateParams.t).

(** Objects of the store. *)
Inductive PyObj :=
| OutboundList (items : list Dict.t)
| HistoryList (items : list ChatbotMessage.t)
| ConfigMessageList (items : list MessageConfiguration.t)
| ServiceObj (model_config : option LLMConfiguration.t)
             (client : option AzureOpenAI.t).

(** The world: the store ([heap], a reference is an index and objects are
    never freed), the clock (its successive readings and how many were
    taken), the remote endpoint (it may answer by what happened before)
    and the trace of external events. *)
Record World := mkWorld {
  heap : list PyObj;
  clock : nat -> Instant;
  ticks : nat;
  remote : list Event -> AzureOpenAI.t -> CreateParams.t -> RemoteOutcome;
  events : list Event
}.

Definition with_heap (h : list PyObj) (w : World) : World :=
  mkWorld h (clock w) (ticks w) (remote w) (events w).

Definition with_ticks (n : nat) (w : World) : World :=
  mkWorld (heap w) (clock w) n (remote w) (events w).

Definition with_events (es : list Event) (w : World) : World :=
  mkWorld (heap w) (clock w) (ticks w) (remote w) es.

(** ** Computations: state and exceptions *)

Definition M (A : Type) : Type := World -> (Exn + A) * World.

Definition ret {A} (a : A) : M A := fun w => (inr a, w).

Definition raise {A} (e : Exn) : M A := fun w => (inl e, w).

Definition bind {A B} (m : M A) (k : A -> M B) : M B :=
  fun w =>
    match m w with
    | (inl e, w') => (inl e, w')
    | (inr a, w') => k a w'
    end.

Notation "x <- m ;; k" := (bind m (fun x => k))
  (at level 100, m at next level, right associativity).

Notation "m ;;; k" := (bind m (fun _ => k))
  (at level 100, right associativity).

(** *** The store *)

Definition alloc (o : PyObj) : M loc :=
  fun w => (inr (length (heap w)), with_heap (heap w ++ [o]) w).

Definition load (l : loc) : M PyObj :=
  fun w =>
    match heap w !! l with
    | Some o => (inr o, w)
    | None => (inl TypeError, w)
    end.

Definition store (l : loc) (o : PyObj) : M unit :=
  fun w => (inr tt, with_heap (<[l := o]> (heap w)) w).

(** [self.model_config] and [self.client]. *)
Definition getattr_model_config (self : loc) : M LLMConfiguration.t :=
  o <- load self ;;
  match o with
  | ServiceObj (Some cfg) _ => ret cfg
  | _ => raise AttributeError
  end.

Definition getattr_client (self : loc) : M AzureOpenAI.t :=
  o <- load self ;;
  match o with
  | ServiceObj _ (Some c) => ret c
  | _ => raise AttributeError
  end.

(** [self.model_config = v] and [self.client = v]. *)
Definition setattr_model_config (self : loc) (v : LLMConfiguration.t) : M unit :=
  o <- load self ;;
  match o with
  | ServiceObj _ c => store self (ServiceObj (Some v) c)
  | _ => raise AttributeError
  end.

Definition setattr_client (self : loc) (v : AzureOpenAI.t) : M unit :=
  o <- load self ;;
  match o with
  | ServiceObj cfg _ => store self (ServiceObj cfg (Some v))
  | _ => raise AttributeError
  end.

(** Reading the items of a list object. *)
Definition config_messages (l : loc) : M (list MessageConfiguration.t) :=
  o <- load l ;;
  match o with
  | ConfigMessageList items => ret items
  | _ => raise TypeError
  end.

Definition history_items (l : loc) : M (list ChatbotMessage.t) :=
  o <- load l ;;
  match o with
  | HistoryList items => ret items
  | _ => raise TypeError
  end.

Definition outbound_items (l : loc) : M (list Dict.t) :=
  o <- load l ;;
  match o with
  | OutboundList items => ret items
  | _ => raise TypeError
  end.

(** [l.append(x)]: the list object at [l] is updated in place. *)
Definition outbound_append (l : loc) (x : Dict.t) : M unit :=
  items <- outbound_items l ;;
  store l (OutboundList (items ++ [x])).

Definition history_append (l : loc) (x : ChatbotMessage.t) : M unit :=
  items <- history_items l ;;
  store l (HistoryList (items ++ [x])).

(** [l.copy()]: a new list object with the same items. *)
Definition history_copy (l : loc) : M loc :=
  items <- history_items l ;;
  alloc (HistoryList items).

(** [for x in xs: body(x)]. *)
Fixpoint for_each {A} (xs : list A) (body : A -> M unit) : M unit :=
  match xs with
  | [] => ret tt
  | x :: rest => body x ;;; for_each rest body
  end.

(** *** The outside *)

Definition log (e : Event) : M unit :=
  fun w => (inr tt, with_events (events w ++ [e]) w).

(** [datetime.now(tz=timezone.utc)]: the next reading of the clock. *)
Definition datetime_now : M Instant :=
  fun w => (inr (clock w (ticks w)), with_ticks (S (ticks w)) w).

Definition DefaultAzureCredential : M unit :=
  log EvDefaultAzureCredential.

Definition get_bearer_token_provider (credential : unit) (scope : string)
  : M TokenProvider.t :=
  log (EvGetBearerTokenProvider scope) ;;;
  ret (TokenProvider.mk scope).

Definition AzureOpenAI_new (api_version azure_endpoint : string)
    (azure_ad_token_provider : TokenProvider.t) : M AzureOpenAI.t :=
  log (EvAzureOpenAI api_version azure_endpoint) ;;;
  ret (AzureOpenAI.mk api_version azure_endpoint azure_ad_token_provider).

(** [client.chat.completions.create(...)]: the request is sent (and
    recorded), and the endpoint either fails or replies. *)
Definition chat_completions_create (client : AzureOpenAI.t)
    (params : CreateParams.t) : M ChatCompletion.t :=
  fun w =>
    let w' := with_events (events w ++ [EvChatCompletionsCreate client params]) w in
    match remote w (events w) client params with
    | RemoteRaise kind => (inl (RemoteServiceError kind), w')
    | RemoteReturn response => (inr response, w')
    end.

(** [xs[0]]. *)
Definition index0 {A} (xs : list A) : M A :=
  match xs with
  | [] => raise IndexError
  | x :: _ => ret x
  end.

(** ** The service *)

(** The list comprehension of [_get_system_messages]: one dictionary per
    configured message whose lowered role is ["system"], in order. *)
Fixpoint system_comprehension (msgs : list MessageConfiguration.t)
  : list Dict.t :=
  match msgs with
  | [] => []
  | msg :: rest =>
      if String.eqb (lower (MessageConfiguration.role msg)) "system"
      then Dict.mk "system" (MessageConfiguration.content msg)
             :: system_comprehension rest
      else system_comprehension rest
  end.

(** [AzureOpenAIService._get_system_messages]: the comprehension builds a
    new list object. *)
Definition _get_system_messages (self : loc) : M loc :=
  model_config <- getattr_model_config self ;;
  msgs <- config_messages (LLMConfiguration.messages model_config) ;;
  alloc (OutboundList (system_comprehension msgs)).

(** [AzureOpenAIService.get_chat_completion]. *)
Definition get_chat_completion (self : loc) (request : ChatRequest.t)
  : M ChatResponse.t :=
  messages <- _get_system_messages self ;;
  (* Add conversation history *)
  request_history <- history_items (ChatRequest.history request) ;;
  for_each request_history (fun message =>
    outbound_append messages
      (Dict.mk (ChatbotMessage.role message)
               (ChatbotMessage.content message))) ;;;
  (* Add current user message *)
  outbound_append messages (Dict.mk "user" (ChatRequest.message request)) ;;;
  client <- getattr_client self ;;
  sent <- outbound_items messages ;;
  cfg_tokens <- getattr_model_config self ;;
  cfg_temperature <- getattr_model_config self ;;
  cfg_model <- getattr_model_config self ;;
  response <- chat_completions_create client
    (CreateParams.mk
       sent
       (LLMConfiguration.max_completion_tokens cfg_tokens)
       (LLMConfiguration.temperature cfg_temperature)
       1%Q
       (LLMConfiguration.model cfg_model)) ;;
  choice <- index0 (ChatCompletion.choices response) ;;
  let response_content := Choice.message_content choice in
  (* Update history *)
  history <- history_copy (ChatRequest.history request) ;;
  now_user <- datetime_now ;;
  history_append history
    (ChatbotMessage.mk "user" (ChatRequest.message request) now_user) ;;;
  now_assistant <- datetime_now ;;
  history_append history
    (ChatbotMessage.mk "assistant" response_content now_assistant) ;;;
  ret (ChatResponse.mk response_content history).

(** [AzureOpenAIService.__init__].  [None] is Python's [None]; an object
    of either configuration class is truthy. *)
Definition __init__ (self : loc)
    (connection_info : option AzureOpenAIConnectionInfo.t)
    (model_config : option LLMConfiguration.t) : M unit :=
  match connection_info with
  | None => raise (ValueError "connection_info cannot be None")
  | Some info =>
      match model_config with
      | None => raise (ValueError "model_config cannot be None")
      | Some config =>
          setattr_model_config self config ;;;
          credential <- DefaultAzureCredential ;;
          token_provider <-
            get_bearer_token_provider credential
              "https://cognitiveservices.azure.com/.default" ;;
          client <-
            AzureOpenAI_new
              (AzureOpenAIConnectionInfo.api_version info)
              (AzureOpenAIConnectionInfo.endpoint info)
              token_provider ;;
          setattr_client self client
      end
  end.

(** [AzureOpenAIService(connection_info, model_config)]: a new object,
    then [__init__] on it. *)
Definition AzureOpenAIService
    (connection_info : option AzureOpenAIConnectionInfo.t)
    (model_config : option LLMConfiguration.t) : M loc :=
  self <- alloc (ServiceObj None None) ;;
  __init__ self connection_info model_config ;;;
  ret self.

(** ** A concrete world, to run the code on *)

Module Demo.

Definition config_list : list MessageConfiguration.t :=
  [ MessageConfiguration.mk "System" "Be concise.";
    MessageConfiguration.mk "user" "ignored";
    MessageConfiguration.mk "SYSTEM" "Be kind." ].

Definition past : list ChatbotMessage.t :=
  [ ChatbotMessage.mk "user" "Hello" 5%Z;
    ChatbotMessage.mk "assistant" "Hi, how can I help?" 6%Z ].

Definition info : AzureOpenAIConnectionInfo.t :=
  AzureOpenAIConnectionInfo.mk "2024-06-01" "https://example.openai.azure.com".

Definition config : LLMConfiguration.t :=
  LLMConfiguration.mk "gpt-4o" 800%Z (7 # 10)%Q 0.

(** The endpoint answers its first request with two choices and times
    out on every later one. *)
Definition endpoint (before : list Event) (c : AzureOpenAI.t)
    (p : CreateParams.t) : RemoteOutcome :=
  if forallb (fun e => match e with
                       | EvChatCompletionsCreate _ _ => false
                       | _ => true
                       end) before
  then RemoteReturn
         (ChatCompletion.mk [Choice.mk "Hello!"; Choice.mk "second"])
  else RemoteRaise Timeout.

(** The store holds the configured messages at 0 and the caller's
    history at 1; the clock reads 100, 101, 102, ... *)
Definition w0 : World :=
  mkWorld [ConfigMessageList config_list; HistoryList past]
          (fun n => (100 + Z.of_nat n)%Z) 0 endpoint [].

Definition request : ChatRequest.t := ChatRequest.mk "What is Rocq?" 1.

(** The world after the service was constructed (it is object 2). *)
Definition w1 : World := snd (AzureOpenAIService (Some info) (Some config) w0).

(** The world after one successful call. *)
Definition w2 : World := snd (get_chat_completion 2 request w1).

(** The client handle that the construction stored. *)
Definition client : AzureOpenAI.t :=
  AzureOpenAI.mk "2024-06-01" "https://example.openai.azure.com"
    (TokenProvider.mk "https://cognitiveservices.azure.com/.default").

(** The entries that the call added to the history it returned (the
    list object 4). *)
Definition appended : list ChatbotMessage.t :=
  match heap w2 !! 4 with
  | Some (HistoryList items) => drop (length past) items
  | _ => []
  end.

End Demo.

(** ** The specification's side *)

(** A configured message is a system message when its role is
    ["system"] whatever the case of its letters. *)
Definition is_system (msg : MessageConfiguration.t) : bool :=
  String.eqb (lower (MessageConfiguration.role msg)) "system".

(** The [{role, content}] pair of a history entry. *)
Definition pair_of (entry : ChatbotMessage.t) : Dict.t :=
  Dict.mk (ChatbotMessage.role entry) (ChatbotMessage.content entry).

(** The outbound message list as the specification words it: the
    configured system messages, then the history, then the user's
    message. *)
Definition outbound_spec (configured : list MessageConfiguration.t)
    (past : list ChatbotMessage.t) (message : string) : list Dict.t :=
  map (fun msg => Dict.mk "system" (MessageConfiguration.content msg))
      (List.filter is_system configured)
  ++ map pair_of past
  ++ [Dict.mk "user" message].

(** The request that a call sends, given the list of messages. *)
Definition params_of (config : LLMConfiguration.t) (sent : list Dict.t)
  : CreateParams.t :=
  CreateParams.mk sent
    (LLMConfiguration.max_completion_tokens config)
    (LLMConfiguration.temperature config)
    1%Q
    (LLMConfiguration.model config).

(** A constructed service at [self], as [__init__] leaves it, with its
    configured messages in the store. *)
Definition service_at (w : World) (self : loc) (config : LLMConfiguration.t)
    (client : AzureOpenAI.t) (configured : list MessageConfiguration.t) : Prop :=
  heap w !! self = Some (ServiceObj (Some config) (Some client))
  /\ heap w !! LLMConfiguration.messages config
     = Some (ConfigMessageList configured).

(** A request whose history is a list of chat messages in the store. *)
Definition request_in (w : World) (request : ChatRequest.t)
    (past : list ChatbotMessage.t) : Prop :=
  heap w !! ChatRequest.history request = Some (HistoryList past).

(** The world once the request was sent: the outbound list is a new
    object and the request is on the trace. *)
Definition sent_world (w : World) (client : AzureOpenAI.t)
    (params : CreateParams.t) : World :=
  with_events (events w ++ [EvChatCompletionsCreate client params])
    (with_heap (heap w ++ [OutboundList (CreateParams.messages params)]) w).

(** The world once a reply [reply] was turned into a new history. *)
Definition replied_world (w : World) (client : AzureOpenAI.t)
    (params : CreateParams.t) (past : list ChatbotMessage.t)
    (message reply : string) : World :=
  with_ticks (S (S (ticks w)))
    (with_heap
       (heap w ++
          [ OutboundList (CreateParams.messages params);
            HistoryList
              (past ++
                 [ ChatbotMessage.mk "user" message (clock w (ticks w));
                   ChatbotMessage.mk "assistant" reply (clock w (S (ticks w))) ]) ])
       (sent_world w client params)).

(** The number of requests on a trace. *)
Definition requests_sent (trace : list Event) : nat :=
  length (List.filter (fun e => match e with
                                | EvChatCompletionsCreate _ _ => true
                                | _ => false
                                end) trace).

(** ** A second world: an endpoint that always replies *)

Module Chat.

(** The endpoint repeats the content of the last message it was sent. *)
Definition echo (before : list Event) (c : AzureOpenAI.t)
    (p : CreateParams.t) : RemoteOutcome :=
  RemoteReturn
    (ChatCompletion.mk
       [Choice.mk
          (match last (CreateParams.messages p) with
           | Some sent => String.append "You said: " (Dict.content sent)
           | None => ""
           end)]).

(** The endpoint replies without any choice. *)
Definition silent (before : list Event) (c : AzureOpenAI.t)
    (p : CreateParams.t) : RemoteOutcome :=
  RemoteReturn (ChatCompletion.mk []).

(** Configured messages none of which is a system message. *)
Definition plain_list : list MessageConfiguration.t :=
  [ MessageConfiguration.mk "user" "Not a system prompt";
    MessageConfiguration.mk "assistant" "Neither is this" ].

Definition plain_config : LLMConfiguration.t :=
  LLMConfiguration.mk "gpt-4o-mini" 256%Z (1 # 5)%Q 2.

(** The store holds the configured messages of [Demo.config] at 0, an
    empty history at 1 and the plain configured messages at 2. *)
Definition w0 : World :=
  mkWorld [ConfigMessageList Demo.config_list; HistoryList [];
           ConfigMessageList plain_list]
          (fun n => (2000 + 10 * Z.of_nat n)%Z) 0 echo [].

(** The service (object 3) and two turns of a conversation: the second
    request carries the history that the first response returned. *)
Definition w1 : World :=
  snd (AzureOpenAIService (Some Demo.info) (Some Demo.config) w0).

Definition first_request : ChatRequest.t := ChatRequest.mk "Hi" 1.

Definition w2 : World := snd (get_chat_completion 3 first_request w1).

Definition second_request : ChatRequest.t := ChatRequest.mk "And then?" 5.

Definition w3 : World := snd (get_chat_completion 3 second_request w2).

(** The service built on the plain configuration instead. *)
Definition plain_w1 : World :=
  snd (AzureOpenAIService (Some Demo.info) (Some plain_config) w0).

(** The world of [w1] with the silent endpoint. *)
Definition silent_w1 : World :=
  mkWorld (heap w1) (clock w1) (ticks w1) silent (events w1).

End Chat.

(** The client handle that [__init__] builds from the connection
    information. *)
Definition client_of (info : AzureOpenAIConnectionInfo.t) : AzureOpenAI.t :=
  AzureOpenAI.mk
    (AzureOpenAIConnectionInfo.api_version info)
    (AzureOpenAIConnectionInfo.endpoint info)
    (TokenProvider.mk "https://cognitiveservices.azure.com/.default").

(** The external events of a construction, in order. *)
Definition construction_events (info : AzureOpenAIConnectionInfo.t)
  : list Event :=
  [ EvDefaultAzureCredential;
    EvGetBearerTokenProvider "https://cognitiveservices.azure.com/.default";
    EvAzureOpenAI (AzureOpenAIConnectionInfo.api_version info)
                  (AzureOpenAIConnectionInfo.endpoint info) ].

(** What a history entry says, without its timestamp. *)
Definition said (entry : ChatbotMessage.t) : string * string :=
  (ChatbotMessage.role entry, ChatbotMessage.content entry).

(** What the caller gets from a call, references and timestamps apart:
    the exception, or the message of the response with what the entries
    of its history say. *)
Definition observed (run : (Exn + ChatResponse.t) * World)
  : Exn + string * list (string * string) :=
  match fst run with
  | inl e => inl e
  | inr response =>
      inr (ChatResponse.message response,
           match heap (snd run) !! ChatResponse.history response with
           | Some (HistoryList items) => map said items
           | _ => []
           end)
  end.

Example demo_construct :
  fst (AzureOpenAIService (Some Demo.info) (Some Demo.config) Demo.w0) = inr 2.
Proof. reflexivity. Qed.

Example demo_call :
  fst (get_chat_completion 2 Demo.request Demo.w1)
  = inr (ChatResponse.mk "Hello!" 4).
Proof. reflexivity. Qed.

Example demo_history :
  heap Demo.w2 !! 4
  = Some (HistoryList (Demo.past ++
            [ ChatbotMessage.mk "user" "What is Rocq?" 100%Z;
              ChatbotMessage.mk "assistant" "Hello!" 101%Z ])).
Proof. reflexivity. Qed.

Example demo_second_call :
  fst (get_chat_completion 2 Demo.request Demo.w2)
  = inl (RemoteServiceError Timeout).
Proof. reflexivity. Qed.

(** ** Running the primitives *)

Lemma bind_inr {A B} (m : M A) (k : A -> M B) w a w' :
  m w = (inr a, w') -> bind m k w = k a w'.
Proof. intros E. unfold bind. now rewrite E. Qed.

Lemma bind_inl {A B} (m : M A) (k : A -> M B) w e w' :
  m w = (inl e, w') -> bind m k w = (inl e, w').
Proof. intros E. unfold bind. now rewrite E. Qed.

Lemma load_Some w l o : heap w !! l = Some o -> load l w = (inr o, w).
Proof. intros E. unfold load. now rewrite E. Qed.

Lemma heap_lookup_new (h : list PyObj) o rest :
  (h ++ o :: rest) !! length h = Some o.
Proof. induction h; simpl; auto. Qed.

Lemma heap_insert_new (h : list PyObj) o o' rest :
  <[length h := o']> (h ++ o :: rest) = h ++ o' :: rest.
Proof. induction h; simpl; [reflexivity | now f_equal]. Qed.

Lemma heap_lookup_old (h : list PyObj) more l o :
  h !! l = Some o -> (h ++ more) !! l = Some o.
Proof. intros E. now apply lookup_app_l_Some. Qed.

(** Appending to the newest object of the store. *)
Lemma outbound_append_new w h items x :
  heap w = h ++ [OutboundList items] ->
  outbound_append (length h) x w
  = (inr tt, with_heap (h ++ [OutboundList (items ++ [x])]) w).
Proof.
  intros E. unfold outbound_append, outbound_items.
  rewrite (bind_inr _ _ w items w).
  - unfold store. rewrite E, heap_insert_new. reflexivity.
  - rewrite (bind_inr _ _ w (OutboundList items) w); [reflexivity |].
    apply load_Some. rewrite E. apply heap_lookup_new.
Qed.

Lemma history_append_new w h items x :
  heap w = h ++ [HistoryList items] ->
  history_append (length h) x w
  = (inr tt, with_heap (h ++ [HistoryList (items ++ [x])]) w).
Proof.
  intros E. unfold history_append, history_items.
  rewrite (bind_inr _ _ w items w).
  - unfold store. rewrite E, heap_insert_new. reflexivity.
  - rewrite (bind_inr _ _ w (HistoryList items) w); [reflexivity |].
    apply load_Some. rewrite E. apply heap_lookup_new.
Qed.

(** The loop over the history appends the pairs of its entries, in
    order, to the outbound list. *)
Lemma for_each_append (past : list ChatbotMessage.t) :
  forall w h items,
    heap w = h ++ [OutboundList items] ->
    for_each past (fun message =>
      outbound_append (length h)
        (Dict.mk (ChatbotMessage.role message)
                 (ChatbotMessage.content message))) w
    = (inr tt, with_heap (h ++ [OutboundList (items ++ map pair_of past)]) w).
Proof.
  induction past as [| entry past IH]; intros w h items E; simpl.
  - rewrite app_nil_r, <- E. destruct w; reflexivity.
  - erewrite bind_inr by (apply outbound_append_new; exact E).
    rewrite (IH _ h (items ++ [pair_of entry])) by reflexivity.
    rewrite <- app_assoc. reflexivity.
Qed.

(** The comprehension is the filter followed by the map. *)
Lemma system_comprehension_filter msgs :
  system_comprehension msgs
  = map (fun msg => Dict.mk "system" (MessageConfiguration.content msg))
        (List.filter is_system msgs).
Proof.
  induction msgs as [| msg rest IH]; simpl; [reflexivity |].
  unfold is_system at 1.
  destruct (String.eqb _ _); simpl; now rewrite IH.
Qed.

Lemma getattr_model_config_run w self config client :
  heap w !! self = Some (ServiceObj (Some config) client) ->
  getattr_model_config self w = (inr config, w).
Proof.
  intros E. unfold getattr_model_config.
  now rewrite (bind_inr _ _ w _ w (load_Some _ _ _ E)).
Qed.

Lemma getattr_client_run w self config client :
  heap w !! self = Some (ServiceObj config (Some client)) ->
  getattr_client self w = (inr client, w).
Proof.
  intros E. unfold getattr_client.
  rewrite (bind_inr _ _ w _ w (load_Some _ _ _ E)).
  now destruct config.
Qed.

Lemma config_messages_run w l items :
  heap w !! l = Some (ConfigMessageList items) ->
  config_messages l w = (inr items, w).
Proof.
  intros E. unfold config_messages.
  now rewrite (bind_inr _ _ w _ w (load_Some _ _ _ E)).
Qed.

Lemma history_items_run w l items :
  heap w !! l = Some (HistoryList items) ->
  history_items l w = (inr items, w).
Proof.
  intros E. unfold history_items.
  now rewrite (bind_inr _ _ w _ w (load_Some _ _ _ E)).
Qed.

Lemma outbound_items_run w l items :
  heap w !! l = Some (OutboundList items) ->
  outbound_items l w = (inr items, w).
Proof.
  intros E. unfold outbound_items.
  now rewrite (bind_inr _ _ w _ w (load_Some _ _ _ E)).
Qed.

Lemma _get_system_messages_run w self config client configured :
  service_at w self config client configured ->
  _get_system_messages self w
  = (inr (length (heap w)),
     with_heap (heap w ++ [OutboundList (system_comprehension configured)]) w).
Proof.
  intros [Hself Hcfg]. unfold _get_system_messages.
  rewrite (bind_inr _ _ _ _ _ (getattr_model_config_run _ _ _ _ Hself)).
  rewrite (bind_inr _ _ _ _ _ (config_messages_run _ _ _ Hcfg)).
  reflexivity.
Qed.

(** ** What a call does

    On a constructed service and a request whose history is in the
    store, [get_chat_completion] sends one request and, by the answer,
    raises or returns. *)
Lemma get_chat_completion_run w self request config client configured past :
  service_at w self config client configured ->
  request_in w request past ->
  get_chat_completion self request w
  = let params :=
      params_of config
        (outbound_spec configured past (ChatRequest.message request)) in
    match remote w (events w) client params with
    | RemoteRaise kind =>
        (inl (RemoteServiceError kind), sent_world w client params)
    | RemoteReturn response =>
        match ChatCompletion.choices response with
        | [] => (inl IndexError, sent_world w client params)
        | choice :: _ =>
            (inr (ChatResponse.mk (Choice.message_content choice)
                    (S (length (heap w)))),
             replied_world w client params past
               (ChatRequest.message request)
               (Choice.message_content choice))
        end
    end.
Proof.
  intros Hsvc Hreq. pose proof Hsvc as [Hself Hcfg]. red in Hreq.
  unfold get_chat_completion.
  rewrite (bind_inr _ _ _ _ _ (_get_system_messages_run _ _ _ _ _ Hsvc)).
  set (sys := system_comprehension configured).
  set (w1 := with_heap (heap w ++ [OutboundList sys]) w).
  assert (Hreq1 : heap w1 !! ChatRequest.history request = Some (HistoryList past))
    by (apply heap_lookup_old; exact Hreq).
  rewrite (bind_inr _ _ _ _ _ (history_items_run _ _ _ Hreq1)).
  rewrite (bind_inr _ _ _ _ _ (for_each_append past w1 (heap w) sys eq_refl)).
  set (w2 := with_heap _ w1).
  rewrite (bind_inr _ _ _ _ _
             (outbound_append_new w2 (heap w) _
                (Dict.mk "user" (ChatRequest.message request)) eq_refl)).
  set (w3 := with_heap _ w2).
  assert (Hself3 : heap w3 !! self = Some (ServiceObj (Some config) (Some client)))
    by (apply heap_lookup_old; exact Hself).
  rewrite (bind_inr _ _ _ _ _ (getattr_client_run _ _ _ _ Hself3)).
  assert (Hsent3 : heap w3 !! length (heap w)
                   = Some (OutboundList
                             ((sys ++ map pair_of past)
                                ++ [Dict.mk "user" (ChatRequest.message request)])))
    by apply heap_lookup_new.
  rewrite (bind_inr _ _ _ _ _ (outbound_items_run _ _ _ Hsent3)).
  rewrite !(bind_inr _ _ _ _ _ (getattr_model_config_run _ _ _ _ Hself3)).
  assert (Hout : (sys ++ map pair_of past)
                   ++ [Dict.mk "user" (ChatRequest.message request)]
                 = outbound_spec configured past (ChatRequest.message request)).
  { unfold outbound_spec, sys.
    now rewrite system_comprehension_filter, <- app_assoc. }
  fold (params_of config ((sys ++ map pair_of past)
                            ++ [Dict.mk "user" (ChatRequest.message request)])).
  clear Hself3 Hsent3 Hreq1. subst w3 w2 w1.
  rewrite Hout. cbv zeta.
  set (params := params_of config _).
  change (with_heap _ (with_heap _ (with_heap _ w)))
    with (with_heap (heap w ++ [OutboundList (CreateParams.messages params)]) w).
  clear Hout sys.
  set (w3 := with_heap _ w).
  unfold bind at 1. unfold chat_completions_create.
  change (remote w3) with (remote w). change (events w3) with (events w).
  destruct (remote w (events w) client params) as [kind | response];
    [reflexivity |].
  destruct (ChatCompletion.choices response) as [| choice others];
    [reflexivity |].
  set (w4 := with_events _ w3).
  rewrite (bind_inr _ _ w4 choice w4 eq_refl).
  assert (Hreq4 : heap w4 !! ChatRequest.history request = Some (HistoryList past))
    by (apply heap_lookup_old; exact Hreq).
  unfold history_copy.
  rewrite (bind_inr _ _ _ _ _
             (bind_inr _ _ _ _ _ (history_items_run _ _ _ Hreq4) : _ = alloc (HistoryList past) w4)).
  rewrite (bind_inr _ _ _ _ _ eq_refl : bind datetime_now _ _ = _).
  change (clock (with_heap _ w4)) with (clock w).
  change (ticks (with_heap _ w4)) with (ticks w).
  set (w5 := with_ticks _ _).
  rewrite (bind_inr _ _ _ _ _
             (history_append_new w5 (heap w4) past _ eq_refl)).
  set (w6 := with_heap _ w5).
  rewrite (bind_inr _ _ _ _ _ eq_refl : bind datetime_now _ w6 = _).
  change (clock w6) with (clock w). change (ticks w6) with (S (ticks w)).
  set (w7 := with_ticks _ w6).
  rewrite (bind_inr _ _ _ _ _
             (history_append_new w7 (heap w4) _ _ eq_refl)).
  unfold ret. f_equal.
  - f_equal. change (heap w4) with (heap w3). unfold w3. simpl.
    rewrite length_app, Nat.add_1_r. reflexivity.
  - unfold replied_world, sent_world, w7, w6, w5, w4, w3,
      with_ticks, with_heap, with_events. simpl.
    now rewrite <- !app_assoc.
Qed.

(** A successful call, read backwards: the endpoint replied, the reply
    had a first choice, and the world is the replied one. *)
Lemma get_chat_completion_success
    w self request config client configured past response w' :
  service_at w self config client configured ->
  request_in w request past ->
  get_chat_completion self request w = (inr response, w') ->
  exists remote_response choice others,
    remote w (events w) client
      (params_of config
         (outbound_spec configured past (ChatRequest.message request)))
    = RemoteReturn remote_response
    /\ ChatCompletion.choices remote_response = choice :: others
    /\ response = ChatResponse.mk (Choice.message_content choice)
                    (S (length (heap w)))
    /\ w' = replied_world w client
              (params_of config
                 (outbound_spec configured past (ChatRequest.message request)))
              past (ChatRequest.message request)
              (Choice.message_content choice).
Proof.
  intros Hsvc Hreq Hrun.
  rewrite (get_chat_completion_run _ _ _ _ _ _ _ Hsvc Hreq) in Hrun.
  cbv zeta in Hrun.
  destruct (remote w _ _ _) as [kind | remote_response]; [discriminate |].
  destruct (ChatCompletion.choices remote_response) as [| choice others] eqn:Hch;
    [discriminate |].
  inversion Hrun; subst. now exists remote_response, choice, others.
Qed.

(** The new history in the replied world. *)
Lemma replied_world_history w client params past message reply :
  heap (replied_world w client params past message reply)
    !! S (length (heap w))
  = Some (HistoryList
            (past ++
               [ ChatbotMessage.mk "user" message (clock w (ticks w));
                 ChatbotMessage.mk "assistant" reply (clock w (S (ticks w))) ])).
Proof.
  unfold replied_world. simpl.
  change (heap w ++ [OutboundList (CreateParams.messages params);
                     HistoryList
                       (past ++
                        [ChatbotMessage.mk "user" message (clock w (ticks w));
                         ChatbotMessage.mk "assistant" reply (clock w (S (ticks w)))])])
    with (heap w ++ [OutboundList (CreateParams.messages params)]
                 ++ [HistoryList
                       (past ++
                        [ChatbotMessage.mk "user" message (clock w (ticks w));
                         ChatbotMessage.mk "assistant" reply (clock w (S (ticks w)))])]).
  rewrite app_assoc.
  replace (S (length (heap w)))
    with (length (heap w ++ [OutboundList (CreateParams.messages params)]))
    by (rewrite length_app, Nat.add_1_r; reflexivity).
  apply heap_lookup_new.
Qed.

(** The last of a list that two entries were appended to. *)
Lemma last_of_two_more {A} (l : list A) x y : last (l ++ [x; y]) = Some y.
Proof.
  induction l as [| a l IH]; [reflexivity |].
  destruct l as [| b l]; [reflexivity | exact IH].
Qed.

(** Every object that was in the store before a call is the same
    after it, whatever the outcome. *)
Lemma get_chat_completion_frame
    w self request config client configured past l o :
  service_at w self config client configured ->
  request_in w request past ->
  heap w !! l = Some o ->
  heap (snd (get_chat_completion self request w)) !! l = Some o.
Proof.
  intros Hsvc Hreq Hl.
  rewrite (get_chat_completion_run _ _ _ _ _ _ _ Hsvc Hreq). cbv zeta.
  destruct (remote w _ _ _) as [kind | remote_response];
    [now apply heap_lookup_old |].
  destruct (ChatCompletion.choices remote_response) as [| choice others];
    now apply heap_lookup_old.
Qed.

(** The trace after a call: one request more, whatever the outcome. *)
Lemma get_chat_completion_trace
    w self request config client configured past :
  service_at w self config client configured ->
  request_in w request past ->
  events (snd (get_chat_completion self request w))
  = events w ++
      [EvChatCompletionsCreate client
         (params_of config
            (outbound_spec configured past (ChatRequest.message request)))].
Proof.
  intros Hsvc Hreq.
  rewrite (get_chat_completion_run _ _ _ _ _ _ _ Hsvc Hreq). cbv zeta.
  destruct (remote w _ _ _) as [kind | remote_response]; [reflexivity |].
  destruct (ChatCompletion.choices remote_response) as [| choice others];
    reflexivity.
Qed.

(** ** The outbound message list *)

Example is_system_any_case :
  map is_system
    [ MessageConfiguration.mk "system" "a"; MessageConfiguration.mk "System" "b";
      MessageConfiguration.mk "SYSTEM" "c"; MessageConfiguration.mk "sYsTeM" "d";
      MessageConfiguration.mk "user" "e"; MessageConfiguration.mk "systems" "f";
      MessageConfiguration.mk " system" "g" ]
  = [true; true; true; true; false; false; false].
Proof. reflexivity. Qed.

(** C1: for every request, the message list that [get_chat_completion]
    sends is the configured messages whose role is ["system"] in any
    case, in their configured order, then the pairs of the entries of
    the request's history in their order, then the one pair of role
    ["user"] with the request's message; the call sends it whether the
    endpoint then replies or fails. *)
Theorem outbound_list_order
    w self request config client configured past :
  service_at w self config client configured ->
  request_in w request past ->
  exists params,
    events (snd (get_chat_completion self request w))
    = events w ++ [EvChatCompletionsCreate client params]
    /\ CreateParams.messages params
       = map (fun msg => Dict.mk "system" (MessageConfiguration.content msg))
             (List.filter is_system configured)
         ++ map pair_of past
         ++ [Dict.mk "user" (ChatRequest.message request)].
Proof.
  intros Hsvc Hreq.
  exists (params_of config
            (outbound_spec configured past (ChatRequest.message request))).
  split; [now apply get_chat_completion_trace | reflexivity].
Qed.

Lemma outbound_list_order_witness :
  service_at Demo.w1 2 Demo.config Demo.client Demo.config_list
  /\ request_in Demo.w1 Demo.request Demo.past
  /\ exists params,
       events (snd (get_chat_completion 2 Demo.request Demo.w1))
       = events Demo.w1 ++ [EvChatCompletionsCreate Demo.client params]
       /\ CreateParams.messages params
          = [ Dict.mk "system" "Be concise."; Dict.mk "system" "Be kind.";
              Dict.mk "user" "Hello";
              Dict.mk "assistant" "Hi, how can I help?";
              Dict.mk "user" "What is Rocq?" ].
Proof.
  split; [split; reflexivity |]. split; [reflexivity |].
  apply (outbound_list_order Demo.w1 2 Demo.request Demo.config Demo.client
           Demo.config_list Demo.past); [split |]; reflexivity.
Defined.

(** ** The returned history *)

(** C2: when [get_chat_completion] returns a response, the history of
    the response has two entries more than the history of the request. *)
Theorem response_history_length
    w self request config client configured past response w' :
  service_at w self config client configured ->
  request_in w request past ->
  get_chat_completion self request w = (inr response, w') ->
  exists items,
    heap w' !! ChatResponse.history response = Some (HistoryList items)
    /\ length items = length past + 2.
Proof.
  intros Hsvc Hreq Hrun.
  destruct (get_chat_completion_success _ _ _ _ _ _ _ _ _ Hsvc Hreq Hrun)
    as (remote_response & choice & others & _ & _ & -> & ->).
  eexists. split; [apply replied_world_history |].
  rewrite length_app. reflexivity.
Qed.

Lemma response_history_length_witness :
  service_at Demo.w1 2 Demo.config Demo.client Demo.config_list
  /\ request_in Demo.w1 Demo.request Demo.past
  /\ get_chat_completion 2 Demo.request Demo.w1
     = (inr (ChatResponse.mk "Hello!" 4), Demo.w2)
  /\ exists items,
       heap Demo.w2 !! 4 = Some (HistoryList items)
       /\ length items = length Demo.past + 2.
Proof.
  split; [split; reflexivity |]. split; [reflexivity |].
  split; [reflexivity |].
  apply (response_history_length Demo.w1 2 Demo.request Demo.config
           Demo.client Demo.config_list Demo.past
           (ChatResponse.mk "Hello!" 4) Demo.w2); [split | |]; reflexivity.
Defined.

(** C3: after a successful call, the entry before the last of the
    response's history has role ["user"] and the request's message as
    content, and the last entry has role ["assistant"] and the
    response's message as content. *)
Theorem response_history_last_two
    w self request config client configured past response w' :
  service_at w self config client configured ->
  request_in w request past ->
  get_chat_completion self request w = (inr response, w') ->
  exists items user_entry assistant_entry,
    heap w' !! ChatResponse.history response = Some (HistoryList items)
    /\ items !! (length items - 2) = Some user_entry
    /\ ChatbotMessage.role user_entry = "user"
    /\ ChatbotMessage.content user_entry = ChatRequest.message request
    /\ items !! (length items - 1) = Some assistant_entry
    /\ ChatbotMessage.role assistant_entry = "assistant"
    /\ ChatbotMessage.content assistant_entry = ChatResponse.message response.
Proof.
  intros Hsvc Hreq Hrun.
  destruct (get_chat_completion_success _ _ _ _ _ _ _ _ _ Hsvc Hreq Hrun)
    as (remote_response & choice & others & _ & _ & -> & ->).
  eexists _, _, _. split; [apply replied_world_history |].
  rewrite length_app. simpl length.
  replace (length past + 2 - 2) with (length past + 0) by lia.
  replace (length past + 2 - 1) with (length past + 1) by lia.
  rewrite !lookup_app_r by lia.
  replace (length past + 0 - length past) with 0 by lia.
  replace (length past + 1 - length past) with 1 by lia.
  simpl. repeat split; reflexivity.
Qed.

Lemma response_history_last_two_witness :
  service_at Demo.w1 2 Demo.config Demo.client Demo.config_list
  /\ request_in Demo.w1 Demo.request Demo.past
  /\ get_chat_completion 2 Demo.request Demo.w1
     = (inr (ChatResponse.mk "Hello!" 4), Demo.w2)
  /\ exists items user_entry assistant_entry,
       heap Demo.w2 !! 4 = Some (HistoryList items)
       /\ items !! (length items - 2) = Some user_entry
       /\ ChatbotMessage.role user_entry = "user"
       /\ ChatbotMessage.content user_entry = "What is Rocq?"
       /\ items !! (length items - 1) = Some assistant_entry
       /\ ChatbotMessage.role assistant_entry = "assistant"
       /\ ChatbotMessage.content assistant_entry = "Hello!".
Proof.
  split; [split; reflexivity |]. split; [reflexivity |].
  split; [reflexivity |].
  apply (response_history_last_two Demo.w1 2 Demo.request Demo.config
           Demo.client Demo.config_list Demo.past
           (ChatResponse.mk "Hello!" 4) Demo.w2); [split | |]; reflexivity.
Defined.

(** C4: [get_chat_completion] does not mutate the request's history.
    Whatever the outcome, the caller's list object holds the same entries
    after the call as before; and when a response is returned, its
    history is another list object, whose first [length past] entries are
    the request's history. *)
Theorem request_history_not_mutated
    w self request config client configured past :
  service_at w self config client configured ->
  request_in w request past ->
  heap (snd (get_chat_completion self request w))
    !! ChatRequest.history request
  = Some (HistoryList past)
  /\ forall response,
       fst (get_chat_completion self request w) = inr response ->
       ChatResponse.history response <> ChatRequest.history request
       /\ exists items,
            heap (snd (get_chat_completion self request w))
              !! ChatResponse.history response
            = Some (HistoryList items)
            /\ take (length past) items = past.
Proof.
  intros Hsvc Hreq. split.
  - now apply (get_chat_completion_frame _ _ _ _ _ _ _ _ _ Hsvc Hreq).
  - intros response Hfst.
    destruct (get_chat_completion self request w) as [result w'] eqn:Hrun.
    simpl in Hfst. subst result. simpl.
    destruct (get_chat_completion_success _ _ _ _ _ _ _ _ _ Hsvc Hreq Hrun)
      as (remote_response & choice & others & _ & _ & -> & ->).
    split.
    + simpl. red in Hreq. apply lookup_lt_Some in Hreq. lia.
    + eexists. split; [apply replied_world_history |].
      now rewrite take_app_length.
Qed.

Lemma request_history_not_mutated_witness :
  service_at Demo.w1 2 Demo.config Demo.client Demo.config_list
  /\ request_in Demo.w1 Demo.request Demo.past
  /\ heap Demo.w2 !! 1 = Some (HistoryList Demo.past)
  /\ forall response,
       fst (get_chat_completion 2 Demo.request Demo.w1) = inr response ->
       ChatResponse.history response <> 1
       /\ exists items,
            heap Demo.w2 !! ChatResponse.history response
            = Some (HistoryList items)
            /\ take (length Demo.past) items = Demo.past.
Proof.
  split; [split; reflexivity |]. split; [reflexivity |].
  apply (request_history_not_mutated Demo.w1 2 Demo.request Demo.config
           Demo.client Demo.config_list Demo.past); [split |]; reflexivity.
Defined.

(** C5: after a successful call, the endpoint had replied, and the
    content of the message of the first choice of its reply is the
    message of the response and the content of the assistant entry that
    ends the response's history. *)
Theorem reply_is_first_choice
    w self request config client configured past response w' :
  service_at w self config client configured ->
  request_in w request past ->
  get_chat_completion self request w = (inr response, w') ->
  exists params remote_response first items assistant_entry,
    events w' = events w ++ [EvChatCompletionsCreate client params]
    /\ remote w (events w) client params = RemoteReturn remote_response
    /\ ChatCompletion.choices remote_response !! 0 = Some first
    /\ ChatResponse.message response = Choice.message_content first
    /\ heap w' !! ChatResponse.history response = Some (HistoryList items)
    /\ last items = Some assistant_entry
    /\ ChatbotMessage.role assistant_entry = "assistant"
    /\ ChatbotMessage.content assistant_entry = Choice.message_content first.
Proof.
  intros Hsvc Hreq Hrun.
  destruct (get_chat_completion_success _ _ _ _ _ _ _ _ _ Hsvc Hreq Hrun)
    as (remote_response & choice & others & Hremote & Hchoices & -> & ->).
  eexists _, remote_response, choice, _, _.
  split; [reflexivity |]. split; [exact Hremote |].
  split; [now rewrite Hchoices |]. split; [reflexivity |].
  split; [apply replied_world_history |].
  split; [apply last_of_two_more |].
  split; reflexivity.
Qed.

Lemma reply_is_first_choice_witness :
  service_at Demo.w1 2 Demo.config Demo.client Demo.config_list
  /\ request_in Demo.w1 Demo.request Demo.past
  /\ get_chat_completion 2 Demo.request Demo.w1
     = (inr (ChatResponse.mk "Hello!" 4), Demo.w2)
  /\ exists params remote_response first items assistant_entry,
       events Demo.w2
       = events Demo.w1 ++ [EvChatCompletionsCreate Demo.client params]
       /\ remote Demo.w1 (events Demo.w1) Demo.client params
          = RemoteReturn remote_response
       /\ ChatCompletion.choices remote_response !! 0 = Some first
       /\ "Hello!" = Choice.message_content first
       /\ heap Demo.w2 !! 4 = Some (HistoryList items)
       /\ last items = Some assistant_entry
       /\ ChatbotMessage.role assistant_entry = "assistant"
       /\ ChatbotMessage.content assistant_entry
          = Choice.message_content first.
Proof.
  split; [split; reflexivity |]. split; [reflexivity |].
  split; [reflexivity |].
  apply (reply_is_first_choice Demo.w1 2 Demo.request Demo.config
           Demo.client Demo.config_list Demo.past
           (ChatResponse.mk "Hello!" 4) Demo.w2); [split | |]; reflexivity.
Defined.

(** ** Construction *)

(** With both arguments present the construction goes outside three
    times: the credential, the token provider, the client. *)
Lemma construction_trace info config w :
  exists self,
    fst (AzureOpenAIService (Some info) (Some config) w) = inr self
    /\ events (snd (AzureOpenAIService (Some info) (Some config) w))
       = events w ++
           [ EvDefaultAzureCredential;
             EvGetBearerTokenProvider
               "https://cognitiveservices.azure.com/.default";
             EvAzureOpenAI (AzureOpenAIConnectionInfo.api_version info)
                           (AzureOpenAIConnectionInfo.endpoint info) ]
    /\ heap (snd (AzureOpenAIService (Some info) (Some config) w)) !! self
       = Some (ServiceObj (Some config)
                 (Some (AzureOpenAI.mk
                          (AzureOpenAIConnectionInfo.api_version info)
                          (AzureOpenAIConnectionInfo.endpoint info)
                          (TokenProvider.mk
                             "https://cognitiveservices.azure.com/.default")))).
Proof.
  exists (length (heap w)).
  unfold AzureOpenAIService, __init__, setattr_model_config, setattr_client,
    DefaultAzureCredential, get_bearer_token_provider, AzureOpenAI_new,
    bind, alloc, load, store, log, ret. simpl.
  rewrite heap_lookup_new. simpl.
  rewrite heap_insert_new, heap_lookup_new. simpl.
  rewrite heap_insert_new, heap_lookup_new.
  repeat split. now rewrite <- !app_assoc.
Qed.

(** C6: constructing the service with [None] for the connection
    information or for the model configuration raises [ValueError] (the
    configuration error of the code), and does so before anything
    outside happens: the trace is the same as before, so no credential
    was acquired and no client was built; the clock was not read and
    the only new object is the attribute-less service object itself. *)
Theorem construction_rejects_none connection_info model_config w :
  connection_info = None \/ model_config = None ->
  exists msg,
    fst (AzureOpenAIService connection_info model_config w)
    = inl (ValueError msg)
    /\ events (snd (AzureOpenAIService connection_info model_config w))
       = events w
    /\ snd (AzureOpenAIService connection_info model_config w)
       = with_heap (heap w ++ [ServiceObj None None]) w.
Proof.
  intros [-> | ->].
  - exists "connection_info cannot be None". repeat split.
  - destruct connection_info as [info |].
    + exists "model_config cannot be None". repeat split.
    + exists "connection_info cannot be None". repeat split.
Qed.

Lemma construction_rejects_none_witness :
  (@None AzureOpenAIConnectionInfo.t = None \/ Some Demo.config = None)
  /\ exists msg,
       fst (AzureOpenAIService None (Some Demo.config) Demo.w0)
       = inl (ValueError msg)
       /\ events (snd (AzureOpenAIService None (Some Demo.config) Demo.w0))
          = events Demo.w0
       /\ snd (AzureOpenAIService None (Some Demo.config) Demo.w0)
          = with_heap (heap Demo.w0 ++ [ServiceObj None None]) Demo.w0.
Proof.
  split; [left; reflexivity |].
  apply (construction_rejects_none None (Some Demo.config) Demo.w0).
  left; reflexivity.
Defined.

(** ** Failure of the remote call *)

(** C7: when the endpoint fails on the request, [get_chat_completion]
    raises the failure of that kind as it is; the request was sent once
    and not again, no response is returned, the clock was not read, and
    the store has no history that it did not have before: its only new
    object is the outbound list. *)
Theorem remote_failure_propagates
    w self request config client configured past kind :
  service_at w self config client configured ->
  request_in w request past ->
  remote w (events w) client
    (params_of config
       (outbound_spec configured past (ChatRequest.message request)))
  = RemoteRaise kind ->
  fst (get_chat_completion self request w) = inl (RemoteServiceError kind)
  /\ requests_sent (events (snd (get_chat_completion self request w)))
     = S (requests_sent (events w))
  /\ ticks (snd (get_chat_completion self request w)) = ticks w
  /\ heap (snd (get_chat_completion self request w))
     = heap w ++
         [OutboundList
            (outbound_spec configured past (ChatRequest.message request))]
  /\ forall l items,
       heap (snd (get_chat_completion self request w)) !! l
       = Some (HistoryList items) ->
       heap w !! l = Some (HistoryList items).
Proof.
  intros Hsvc Hreq Hfail.
  rewrite (get_chat_completion_run _ _ _ _ _ _ _ Hsvc Hreq). cbv zeta.
  rewrite Hfail. simpl.
  split; [reflexivity |]. split.
  - unfold requests_sent. rewrite List.filter_app, length_app. simpl. lia.
  - split; [reflexivity |]. split; [reflexivity |].
    intros l items Hl.
    apply lookup_app_Some in Hl. destruct Hl as [Hold | [_ Hnew]];
      [exact Hold |].
    destruct (l - length (heap w)) as [| n]; simpl in Hnew; discriminate.
Qed.

Lemma remote_failure_propagates_witness :
  service_at Demo.w2 2 Demo.config Demo.client Demo.config_list
  /\ request_in Demo.w2 Demo.request Demo.past
  /\ remote Demo.w2 (events Demo.w2) Demo.client
       (params_of Demo.config
          (outbound_spec Demo.config_list Demo.past "What is Rocq?"))
     = RemoteRaise Timeout
  /\ fst (get_chat_completion 2 Demo.request Demo.w2)
     = inl (RemoteServiceError Timeout)
  /\ requests_sent (events (snd (get_chat_completion 2 Demo.request Demo.w2)))
     = S (requests_sent (events Demo.w2))
  /\ ticks (snd (get_chat_completion 2 Demo.request Demo.w2)) = ticks Demo.w2
  /\ heap (snd (get_chat_completion 2 Demo.request Demo.w2))
     = heap Demo.w2 ++
         [OutboundList
            (outbound_spec Demo.config_list Demo.past "What is Rocq?")]
  /\ forall l items,
       heap (snd (get_chat_completion 2 Demo.request Demo.w2)) !! l
       = Some (HistoryList items) ->
       heap Demo.w2 !! l = Some (HistoryList items).
Proof.
  split; [split; reflexivity |]. split; [reflexivity |].
  split; [reflexivity |].
  apply (remote_failure_propagates Demo.w2 2 Demo.request Demo.config
           Demo.client Demo.config_list Demo.past Timeout);
    [split | |]; reflexivity.
Defined.

(** ** Timestamps *)

(** C8, as stated, fails: in the demonstration world the clock moves
    between its two readings, the call succeeds, and the two entries it
    appends carry the instants 100 and 101; no single instant is the
    timestamp of both. *)
Lemma appended_timestamps_differ :
  fst (get_chat_completion 2 Demo.request Demo.w1)
  = inr (ChatResponse.mk "Hello!" 4)
  /\ map ChatbotMessage.role Demo.appended = ["user"; "assistant"]
  /\ map ChatbotMessage.timestamp Demo.appended = [100; 101]%Z
  /\ ~ exists now : Instant,
         Forall (fun entry => ChatbotMessage.timestamp entry = now)
                Demo.appended.
Proof.
  split; [reflexivity |]. split; [reflexivity |]. split; [reflexivity |].
  intros [now Hall]. vm_compute in Hall.
  inversion Hall as [| ? ? Huser Hrest]; subst.
  inversion Hrest as [| ? ? Hassistant _]; subst.
  simpl in Hassistant. discriminate.
Qed.

(** C8, amended: on a successful call the two appended entries carry two
    successive readings of the clock, the user entry the first of them
    and the assistant entry the next one, and the call reads the clock
    exactly twice.  The readings are taken after the endpoint replied: a
    call that returns no response (the endpoint failed, or its reply had
    no choice) has not read the clock at all. *)
Theorem appended_timestamps_successive
    w self request config client configured past :
  service_at w self config client configured ->
  request_in w request past ->
  (forall response w',
     get_chat_completion self request w = (inr response, w') ->
     exists items,
       heap w' !! ChatResponse.history response = Some (HistoryList items)
       /\ map ChatbotMessage.role (drop (length past) items)
          = ["user"; "assistant"]
       /\ map ChatbotMessage.timestamp (drop (length past) items)
          = [clock w (ticks w); clock w (S (ticks w))]
       /\ ticks w' = S (S (ticks w)))
  /\ (forall e w',
        get_chat_completion self request w = (inl e, w') ->
        ticks w' = ticks w
        /\ (e = IndexError \/ exists kind, e = RemoteServiceError kind)).
Proof.
  intros Hsvc Hreq. split.
  - intros response w' Hrun.
    destruct (get_chat_completion_success _ _ _ _ _ _ _ _ _ Hsvc Hreq Hrun)
      as (remote_response & choice & others & _ & _ & -> & ->).
    eexists. split; [apply replied_world_history |].
    rewrite drop_app_length. repeat split.
  - intros e w' Hrun.
    rewrite (get_chat_completion_run _ _ _ _ _ _ _ Hsvc Hreq) in Hrun.
    cbv zeta in Hrun.
    destruct (remote w _ _ _) as [kind | [choices]].
    + injection Hrun as <- <-. split; [reflexivity | right; now exists kind].
    + destruct choices as [| choice others]; [| discriminate].
      injection Hrun as <- <-. split; [reflexivity | now left].
Qed.

Lemma appended_timestamps_successive_witness :
  service_at Demo.w1 2 Demo.config Demo.client Demo.config_list
  /\ request_in Demo.w1 Demo.request Demo.past
  /\ (forall response w',
        get_chat_completion 2 Demo.request Demo.w1 = (inr response, w') ->
        exists items,
          heap w' !! ChatResponse.history response = Some (HistoryList items)
          /\ map ChatbotMessage.role (drop (length Demo.past) items)
             = ["user"; "assistant"]
          /\ map ChatbotMessage.timestamp (drop (length Demo.past) items)
             = [clock Demo.w1 (ticks Demo.w1);
                clock Demo.w1 (S (ticks Demo.w1))]
          /\ ticks w' = S (S (ticks Demo.w1)))
  /\ (forall e w',
        get_chat_completion 2 Demo.request Demo.w1 = (inl e, w') ->
        ticks w' = ticks Demo.w1
        /\ (e = IndexError \/ exists kind, e = RemoteServiceError kind)).
Proof.
  split; [split; reflexivity |]. split; [reflexivity |].
  apply (appended_timestamps_successive Demo.w1 2 Demo.request Demo.config
           Demo.client Demo.config_list Demo.past); [split |]; reflexivity.
Defined.

(** ** Statelessness *)

(** The endpoint of a world is the same after a call. *)
Lemma get_chat_completion_remote
    w self request config client configured past :
  service_at w self config client configured ->
  request_in w request past ->
  remote (snd (get_chat_completion self request w)) = remote w.
Proof.
  intros Hsvc Hreq.
  rewrite (get_chat_completion_run _ _ _ _ _ _ _ Hsvc Hreq). cbv zeta.
  destruct (remote w _ _ _) as [kind | remote_response]; [reflexivity |].
  destruct (ChatCompletion.choices remote_response) as [| choice others];
    reflexivity.
Qed.

(** What the caller gets from a call, by the answer of the endpoint. *)
Lemma get_chat_completion_observed
    w self request config client configured past :
  service_at w self config client configured ->
  request_in w request past ->
  observed (get_chat_completion self request w)
  = match remote w (events w) client
            (params_of config
               (outbound_spec configured past (ChatRequest.message request)))
    with
    | RemoteRaise kind => inl (RemoteServiceError kind)
    | RemoteReturn remote_response =>
        match ChatCompletion.choices remote_response with
        | [] => inl IndexError
        | choice :: _ =>
            inr (Choice.message_content choice,
                 map said past
                 ++ [ ("user", ChatRequest.message request);
                      ("assistant", Choice.message_content choice) ])
        end
    end.
Proof.
  intros Hsvc Hreq.
  rewrite (get_chat_completion_run _ _ _ _ _ _ _ Hsvc Hreq). cbv zeta.
  destruct (remote w _ _ _) as [kind | remote_response]; [reflexivity |].
  destruct (ChatCompletion.choices remote_response) as [| choice others];
    [reflexivity |].
  unfold observed. cbn [fst snd ChatResponse.message ChatResponse.history].
  rewrite replied_world_history, map_app. reflexivity.
Qed.

(** C9, as stated, fails: the outcome of a call can depend on the calls
    before it.  In the demonstration world the endpoint answers its
    first request and times out on later ones; the service object is the
    same after the first call, yet the same request then raises where it
    had returned a response. *)
Lemma later_outcome_depends_on_earlier_call :
  Demo.w2 = snd (get_chat_completion 2 Demo.request Demo.w1)
  /\ heap Demo.w2 !! 2 = heap Demo.w1 !! 2
  /\ fst (get_chat_completion 2 Demo.request Demo.w1)
     = inr (ChatResponse.mk "Hello!" 4)
  /\ fst (get_chat_completion 2 Demo.request Demo.w2)
     = inl (RemoteServiceError Timeout)
  /\ observed (get_chat_completion 2 Demo.request Demo.w2)
     <> observed (get_chat_completion 2 Demo.request Demo.w1).
Proof.
  split; [reflexivity |]. split; [reflexivity |].
  split; [reflexivity |]. split; [reflexivity |].
  vm_compute. discriminate.
Qed.

(** C9, amended: a call leaves the service as it found it.  Whatever the
    outcome, the service object (its model configuration and its client
    handle, which holds the token provider) and every other object that
    was in the store are the same after the call as before, so the
    service is still the constructed service.  A later call therefore
    sends the request it would have sent without the earlier call, and
    its outcome depends on the earlier call only through the endpoint:
    when the endpoint answers that request as it would have without the
    earlier call, the later call raises the same exception or returns
    the same message and a history that says the same. *)
Theorem call_is_stateless
    w self request config client configured past :
  service_at w self config client configured ->
  request_in w request past ->
  heap (snd (get_chat_completion self request w)) !! self = heap w !! self
  /\ (forall l o,
        heap w !! l = Some o ->
        heap (snd (get_chat_completion self request w)) !! l = Some o)
  /\ service_at (snd (get_chat_completion self request w))
       self config client configured
  /\ forall later later_past,
       request_in w later later_past ->
       last (events (snd (get_chat_completion self later
                            (snd (get_chat_completion self request w)))))
       = last (events (snd (get_chat_completion self later w)))
       /\ (remote w (events (snd (get_chat_completion self request w)))
             client
             (params_of config
                (outbound_spec configured later_past
                   (ChatRequest.message later)))
           = remote w (events w) client
               (params_of config
                  (outbound_spec configured later_past
                     (ChatRequest.message later))) ->
           observed (get_chat_completion self later
                       (snd (get_chat_completion self request w)))
           = observed (get_chat_completion self later w)).
Proof.
  intros Hsvc Hreq.
  pose proof (fun l o => get_chat_completion_frame w self request config
                           client configured past l o Hsvc Hreq) as Hframe.
  assert (Hsvc' : service_at (snd (get_chat_completion self request w))
                    self config client configured).
  { destruct Hsvc as [Hself Hcfg]. split; now apply Hframe. }
  split; [| split; [exact Hframe | split; [exact Hsvc' |]]].
  - destruct Hsvc as [Hself _]. rewrite Hself. now apply Hframe.
  - intros later later_past Hlater.
    assert (Hlater' : request_in (snd (get_chat_completion self request w))
                        later later_past) by (now apply Hframe).
    split.
    + rewrite (get_chat_completion_trace _ _ _ _ _ _ _ Hsvc' Hlater').
      rewrite (get_chat_completion_trace _ _ _ _ _ _ _ Hsvc Hlater).
      now rewrite !last_snoc.
    + intros Hsame.
      rewrite (get_chat_completion_observed _ _ _ _ _ _ _ Hsvc' Hlater').
      rewrite (get_chat_completion_observed _ _ _ _ _ _ _ Hsvc Hlater).
      rewrite (get_chat_completion_remote _ _ _ _ _ _ _ Hsvc Hreq).
      now rewrite Hsame.
Qed.

Lemma call_is_stateless_witness :
  service_at Chat.w1 3 Demo.config (client_of Demo.info) Demo.config_list
  /\ request_in Chat.w1 Chat.first_request []
  /\ heap Chat.w2 !! 3 = heap Chat.w1 !! 3
  /\ (forall l o, heap Chat.w1 !! l = Some o -> heap Chat.w2 !! l = Some o)
  /\ service_at Chat.w2 3 Demo.config (client_of Demo.info) Demo.config_list
  /\ forall later later_past,
       request_in Chat.w1 later later_past ->
       last (events (snd (get_chat_completion 3 later Chat.w2)))
       = last (events (snd (get_chat_completion 3 later Chat.w1)))
       /\ (remote Chat.w1 (events Chat.w2) (client_of Demo.info)
             (params_of Demo.config
                (outbound_spec Demo.config_list later_past
                   (ChatRequest.message later)))
           = remote Chat.w1 (events Chat.w1) (client_of Demo.info)
               (params_of Demo.config
                  (outbound_spec Demo.config_list later_past
                     (ChatRequest.message later))) ->
           observed (get_chat_completion 3 later Chat.w2)
           = observed (get_chat_completion 3 later Chat.w1)).
Proof.
  split; [split; reflexivity |]. split; [reflexivity |].
  apply (call_is_stateless Chat.w1 3 Chat.first_request Demo.config
           (client_of Demo.info) Demo.config_list []);
    [split |]; reflexivity.
Defined.

(** ** Configured messages that are not system messages *)

Lemma system_comprehension_app l1 l2 :
  system_comprehension (l1 ++ l2)
  = system_comprehension l1 ++ system_comprehension l2.
Proof.
  induction l1 as [| msg l1 IH]; simpl; [reflexivity |].
  destruct (String.eqb _ _); simpl; now rewrite IH.
Qed.

Lemma system_comprehension_roles msgs :
  Forall (fun pair => Dict.role pair = "system") (system_comprehension msgs).
Proof.
  induction msgs as [| msg rest IH]; simpl; [constructor |].
  destruct (String.eqb _ _); [constructor; [reflexivity | exact IH] | exact IH].
Qed.

(** C10: a configured message contributes to the list that is sent by
    its role alone.  If its role is ["system"] in any case, it
    contributes, at its place among the configured messages, one pair
    whose role is the string ["system"] and whose content is its own
    content; otherwise it contributes nothing.  Every pair that comes
    from the configured messages has the role ["system"]. *)
Theorem configured_message_contribution
    w self request config client before msg after past :
  service_at w self config client (before ++ msg :: after) ->
  request_in w request past ->
  exists params system_pairs,
    events (snd (get_chat_completion self request w))
    = events w ++ [EvChatCompletionsCreate client params]
    /\ CreateParams.messages params
       = system_pairs ++ map pair_of past
           ++ [Dict.mk "user" (ChatRequest.message request)]
    /\ system_pairs
       = system_comprehension before
         ++ (if String.eqb (lower (MessageConfiguration.role msg)) "system"
             then [Dict.mk "system" (MessageConfiguration.content msg)]
             else [])
         ++ system_comprehension after
    /\ Forall (fun pair => Dict.role pair = "system") system_pairs.
Proof.
  intros Hsvc Hreq.
  exists (params_of config
            (outbound_spec (before ++ msg :: after) past
               (ChatRequest.message request))),
         (system_comprehension (before ++ msg :: after)).
  split; [now apply get_chat_completion_trace |]. split.
  - simpl. unfold outbound_spec.
    now rewrite <- system_comprehension_filter.
  - split; [| apply system_comprehension_roles].
    rewrite system_comprehension_app. simpl.
    now destruct (String.eqb _ _).
Qed.

Lemma configured_message_contribution_witness :
  service_at Demo.w1 2 Demo.config Demo.client
    ([MessageConfiguration.mk "System" "Be concise."]
       ++ MessageConfiguration.mk "user" "ignored"
       :: [MessageConfiguration.mk "SYSTEM" "Be kind."])
  /\ request_in Demo.w1 Demo.request Demo.past
  /\ exists params system_pairs,
       events (snd (get_chat_completion 2 Demo.request Demo.w1))
       = events Demo.w1 ++ [EvChatCompletionsCreate Demo.client params]
       /\ CreateParams.messages params
          = system_pairs ++ map pair_of Demo.past
              ++ [Dict.mk "user" "What is Rocq?"]
       /\ system_pairs
          = [Dict.mk "system" "Be concise."] ++ [] ++ [Dict.mk "system" "Be kind."]
       /\ Forall (fun pair => Dict.role pair = "system") system_pairs.
Proof.
  split; [split; reflexivity |]. split; [reflexivity |].
  apply (configured_message_contribution Demo.w1 2 Demo.request Demo.config
           Demo.client [MessageConfiguration.mk "System" "Be concise."]
           (MessageConfiguration.mk "user" "ignored")
           [MessageConfiguration.mk "SYSTEM" "Be kind."] Demo.past);
    [split |]; reflexivity.
Defined.

(** * Further properties of the service *)

Example chat_first_turn :
  fst (get_chat_completion 3 Chat.first_request Chat.w1)
  = inr (ChatResponse.mk "You said: Hi" 5).
Proof. reflexivity. Qed.

Example chat_second_turn :
  fst (get_chat_completion 3 Chat.second_request Chat.w2)
  = inr (ChatResponse.mk "You said: And then?" 7).
Proof. reflexivity. Qed.

Example chat_silent :
  fst (get_chat_completion 3 Chat.first_request Chat.silent_w1)
  = inl IndexError.
Proof. reflexivity. Qed.

(** ** Construction, continued *)

(** What a construction with both arguments does. *)
Lemma AzureOpenAIService_run info config w :
  AzureOpenAIService (Some info) (Some config) w
  = (inr (length (heap w)),
     with_events (events w ++ construction_events info)
       (with_heap
          (heap w ++ [ServiceObj (Some config) (Some (client_of info))]) w)).
Proof.
  unfold AzureOpenAIService, __init__, setattr_model_config, setattr_client,
    DefaultAzureCredential, get_bearer_token_provider, AzureOpenAI_new,
    bind, alloc, load, store, log, ret. simpl.
  rewrite heap_lookup_new. simpl.
  rewrite heap_insert_new, heap_lookup_new. simpl.
  rewrite heap_insert_new.
  unfold with_events, with_heap, construction_events. simpl.
  now rewrite <- !app_assoc.
Qed.

(** X1: the connection information is checked first.  The error about
    the connection information is raised exactly when it is [None],
    whatever the model configuration is (even when that is [None] too);
    the error about the model configuration is raised exactly when the
    connection information is present and the model configuration is
    [None]. *)
Theorem construction_error_precedence connection_info model_config w :
  (fst (AzureOpenAIService connection_info model_config w)
   = inl (ValueError "connection_info cannot be None")
   <-> connection_info = None)
  /\ (fst (AzureOpenAIService connection_info model_config w)
      = inl (ValueError "model_config cannot be None")
      <-> connection_info <> None /\ model_config = None).
Proof.
  destruct connection_info as [info |].
  - destruct model_config as [config |].
    + rewrite AzureOpenAIService_run. simpl. split; split.
      * discriminate.
      * discriminate.
      * discriminate.
      * intros [_ Hnone]. discriminate.
    + split; split.
      * discriminate.
      * discriminate.
      * intros _. split; [discriminate | reflexivity].
      * reflexivity.
  - split; split.
    + reflexivity.
    + reflexivity.
    + discriminate.
    + intros [Hsome _]. contradiction.
Qed.

(** X3: a construction with both arguments returns a reference that was
    not in the store, to a service that holds the given configuration
    and a client bound to the given API version and endpoint and to the
    token provider of the cognitive-services scope.  It goes outside
    three times, in this order: credential, token provider, client.  It
    changes no object that was in the store and does not read the
    clock. *)
Theorem constructed_service_ready info config configured w :
  heap w !! LLMConfiguration.messages config
  = Some (ConfigMessageList configured) ->
  exists self w',
    AzureOpenAIService (Some info) (Some config) w = (inr self, w')
    /\ heap w !! self = None
    /\ service_at w' self config (client_of info) configured
    /\ (forall l o, heap w !! l = Some o -> heap w' !! l = Some o)
    /\ events w' = events w ++ construction_events info
    /\ ticks w' = ticks w.
Proof.
  intros Hcfg. eexists _, _.
  split; [apply AzureOpenAIService_run |].
  split; [now apply lookup_ge_None |]. split.
  - split; [apply heap_lookup_new | now apply heap_lookup_old].
  - split; [| split; reflexivity].
    intros l o Hl. now apply heap_lookup_old.
Qed.

Lemma constructed_service_ready_witness :
  heap Demo.w0 !! LLMConfiguration.messages Demo.config
  = Some (ConfigMessageList Demo.config_list)
  /\ exists self w',
       AzureOpenAIService (Some Demo.info) (Some Demo.config) Demo.w0
       = (inr self, w')
       /\ heap Demo.w0 !! self = None
       /\ service_at w' self Demo.config (client_of Demo.info)
            Demo.config_list
       /\ (forall l o, heap Demo.w0 !! l = Some o -> heap w' !! l = Some o)
       /\ events w' = events Demo.w0 ++ construction_events Demo.info
       /\ ticks w' = ticks Demo.w0.
Proof.
  split; [reflexivity |].
  apply (constructed_service_ready Demo.info Demo.config Demo.config_list
           Demo.w0). reflexivity.
Defined.

(** X4: construction followed by a call.  The whole trace is the three
    events of the construction and then the one request, sent through
    the client that the construction built: the call itself acquires no
    credential and builds no client. *)
Theorem construct_then_call_trace info config configured request past w :
  heap w !! LLMConfiguration.messages config
  = Some (ConfigMessageList configured) ->
  request_in w request past ->
  exists self w',
    AzureOpenAIService (Some info) (Some config) w = (inr self, w')
    /\ events (snd (get_chat_completion self request w'))
       = events w ++ construction_events info ++
           [EvChatCompletionsCreate (client_of info)
              (params_of config
                 (outbound_spec configured past
                    (ChatRequest.message request)))].
Proof.
  intros Hcfg Hreq. eexists _, _.
  split; [apply AzureOpenAIService_run |].
  set (w' := with_events _ _).
  assert (Hsvc : service_at w' (length (heap w)) config (client_of info)
                   configured)
    by (split; [apply heap_lookup_new | now apply heap_lookup_old]).
  assert (Hreq' : request_in w' request past)
    by (now apply heap_lookup_old).
  rewrite (get_chat_completion_trace _ _ _ _ _ _ _ Hsvc Hreq').
  simpl. now rewrite <- app_assoc.
Qed.

Lemma construct_then_call_trace_witness :
  heap Demo.w0 !! LLMConfiguration.messages Demo.config
  = Some (ConfigMessageList Demo.config_list)
  /\ request_in Demo.w0 Demo.request Demo.past
  /\ exists self w',
       AzureOpenAIService (Some Demo.info) (Some Demo.config) Demo.w0
       = (inr self, w')
       /\ events (snd (get_chat_completion self Demo.request w'))
          = events Demo.w0 ++ construction_events Demo.info ++
              [EvChatCompletionsCreate (client_of Demo.info)
                 (params_of Demo.config
                    (outbound_spec Demo.config_list Demo.past
                       (ChatRequest.message Demo.request)))].
Proof.
  split; [reflexivity |]. split; [reflexivity |].
  apply (construct_then_call_trace Demo.info Demo.config Demo.config_list
           Demo.request Demo.past Demo.w0); reflexivity.
Defined.

(** ** The request, continued *)

(** X5: besides the messages, the request carries the configured
    completion-token limit as [max_tokens], the configured temperature,
    [top_p] fixed at 1 and the configured model, and it is sent through
    the client stored in the service; this holds whatever the endpoint
    then answers. *)
Theorem request_parameters
    w self request config client configured past :
  service_at w self config client configured ->
  request_in w request past ->
  exists params,
    last (events (snd (get_chat_completion self request w)))
    = Some (EvChatCompletionsCreate client params)
    /\ CreateParams.max_tokens params
       = LLMConfiguration.max_completion_tokens config
    /\ CreateParams.temperature params = LLMConfiguration.temperature config
    /\ CreateParams.top_p params = 1%Q
    /\ CreateParams.model params = LLMConfiguration.model config.
Proof.
  intros Hsvc Hreq. eexists. split.
  - rewrite (get_chat_completion_trace _ _ _ _ _ _ _ Hsvc Hreq).
    apply last_snoc.
  - repeat split.
Qed.

Lemma request_parameters_witness :
  service_at Demo.w1 2 Demo.config Demo.client Demo.config_list
  /\ request_in Demo.w1 Demo.request Demo.past
  /\ exists params,
       last (events (snd (get_chat_completion 2 Demo.request Demo.w1)))
       = Some (EvChatCompletionsCreate Demo.client params)
       /\ CreateParams.max_tokens params = 800%Z
       /\ CreateParams.temperature params = (7 # 10)%Q
       /\ CreateParams.top_p params = 1%Q
       /\ CreateParams.model params = "gpt-4o".
Proof.
  split; [split; reflexivity |]. split; [reflexivity |].
  apply (request_parameters Demo.w1 2 Demo.request Demo.config Demo.client
           Demo.config_list Demo.past); [split |]; reflexivity.
Defined.

(** X6: the entries of the history are sent as they are.  The entry at
    position [i] of the request's history is sent at position [i] after
    the system pairs, with its role and its content unchanged: unlike
    the configured roles, the roles of the history are neither lowered
    nor filtered. *)
Theorem history_pairs_sent_verbatim
    w self request config client configured past i entry :
  service_at w self config client configured ->
  request_in w request past ->
  past !! i = Some entry ->
  exists params,
    last (events (snd (get_chat_completion self request w)))
    = Some (EvChatCompletionsCreate client params)
    /\ CreateParams.messages params
         !! (length (List.filter is_system configured) + i)
       = Some (Dict.mk (ChatbotMessage.role entry)
                       (ChatbotMessage.content entry)).
Proof.
  intros Hsvc Hreq Hentry. eexists. split.
  - rewrite (get_chat_completion_trace _ _ _ _ _ _ _ Hsvc Hreq).
    apply last_snoc.
  - simpl. unfold outbound_spec.
    rewrite lookup_app_r by (rewrite length_map; lia).
    rewrite length_map.
    replace (length (List.filter is_system configured) + i
             - length (List.filter is_system configured)) with i by lia.
    apply lookup_app_l_Some. rewrite list_lookup_fmap, Hentry. reflexivity.
Qed.

Lemma history_pairs_sent_verbatim_witness :
  service_at Demo.w1 2 Demo.config Demo.client Demo.config_list
  /\ request_in Demo.w1 Demo.request Demo.past
  /\ Demo.past !! 1
     = Some (ChatbotMessage.mk "assistant" "Hi, how can I help?" 6%Z)
  /\ exists params,
       last (events (snd (get_chat_completion 2 Demo.request Demo.w1)))
       = Some (EvChatCompletionsCreate Demo.client params)
       /\ CreateParams.messages params
            !! (length (List.filter is_system Demo.config_list) + 1)
          = Some (Dict.mk "assistant" "Hi, how can I help?").
Proof.
  split; [split; reflexivity |]. split; [reflexivity |].
  split; [reflexivity |].
  apply (history_pairs_sent_verbatim Demo.w1 2 Demo.request Demo.config
           Demo.client Demo.config_list Demo.past 1
           (ChatbotMessage.mk "assistant" "Hi, how can I help?" 6%Z));
    [split | |]; reflexivity.
Defined.

(** X7: the list that is sent is never empty: it ends with the user's
    message, and its length is the number of configured system messages
    plus the length of the history plus one. *)
Theorem user_message_last
    w self request config client configured past :
  service_at w self config client configured ->
  request_in w request past ->
  exists params,
    last (events (snd (get_chat_completion self request w)))
    = Some (EvChatCompletionsCreate client params)
    /\ last (CreateParams.messages params)
       = Some (Dict.mk "user" (ChatRequest.message request))
    /\ length (CreateParams.messages params)
       = length (List.filter is_system configured) + length past + 1.
Proof.
  intros Hsvc Hreq. eexists. split.
  - rewrite (get_chat_completion_trace _ _ _ _ _ _ _ Hsvc Hreq).
    apply last_snoc.
  - simpl. unfold outbound_spec. split.
    + rewrite app_assoc. apply last_snoc.
    + rewrite !length_app, !length_map. simpl. lia.
Qed.

Lemma user_message_last_witness :
  service_at Demo.w1 2 Demo.config Demo.client Demo.config_list
  /\ request_in Demo.w1 Demo.request Demo.past
  /\ exists params,
       last (events (snd (get_chat_completion 2 Demo.request Demo.w1)))
       = Some (EvChatCompletionsCreate Demo.client params)
       /\ last (CreateParams.messages params)
          = Some (Dict.mk "user" "What is Rocq?")
       /\ length (CreateParams.messages params) = 2 + 2 + 1.
Proof.
  split; [split; reflexivity |]. split; [reflexivity |].
  apply (user_message_last Demo.w1 2 Demo.request Demo.config Demo.client
           Demo.config_list Demo.past); [split |]; reflexivity.
Defined.

Lemma system_comprehension_none msgs :
  Forall (fun msg => is_system msg = false) msgs ->
  system_comprehension msgs = [].
Proof.
  induction 1 as [| msg rest Hmsg _ IH]; simpl; [reflexivity |].
  unfold is_system in Hmsg. now rewrite Hmsg.
Qed.

(** X8: when none of the configured messages is a system message (in
    particular when none is configured), nothing is put before the
    conversation: the list that is sent is the history followed by the
    user's message. *)
Theorem no_system_message_nothing_prepended
    w self request config client configured past :
  service_at w self config client configured ->
  request_in w request past ->
  Forall (fun msg => is_system msg = false) configured ->
  exists params,
    last (events (snd (get_chat_completion self request w)))
    = Some (EvChatCompletionsCreate client params)
    /\ CreateParams.messages params
       = map pair_of past ++ [Dict.mk "user" (ChatRequest.message request)].
Proof.
  intros Hsvc Hreq Hnone. eexists. split.
  - rewrite (get_chat_completion_trace _ _ _ _ _ _ _ Hsvc Hreq).
    apply last_snoc.
  - simpl. unfold outbound_spec.
    now rewrite <- system_comprehension_filter,
      (system_comprehension_none _ Hnone).
Qed.

Lemma no_system_message_nothing_prepended_witness :
  service_at Chat.plain_w1 3 Chat.plain_config (client_of Demo.info)
    Chat.plain_list
  /\ request_in Chat.plain_w1 Chat.first_request []
  /\ Forall (fun msg => is_system msg = false) Chat.plain_list
  /\ exists params,
       last (events (snd (get_chat_completion 3 Chat.first_request
                            Chat.plain_w1)))
       = Some (EvChatCompletionsCreate (client_of Demo.info) params)
       /\ CreateParams.messages params = [] ++ [Dict.mk "user" "Hi"].
Proof.
  split; [split; reflexivity |]. split; [reflexivity |].
  split; [repeat constructor |].
  apply (no_system_message_nothing_prepended Chat.plain_w1 3
           Chat.first_request Chat.plain_config (client_of Demo.info)
           Chat.plain_list []);
    [split; reflexivity | reflexivity | repeat constructor].
Defined.

(** ** The reply, continued *)

(** X9: a reply without any choice makes [choices[0]] fail.  The call
    raises [IndexError] after the request was sent; it returns no
    response, does not read the clock, creates no history and leaves the
    request's history as it was. *)
Theorem empty_choices_raise_index_error
    w self request config client configured past remote_response :
  service_at w self config client configured ->
  request_in w request past ->
  remote w (events w) client
    (params_of config
       (outbound_spec configured past (ChatRequest.message request)))
  = RemoteReturn remote_response ->
  ChatCompletion.choices remote_response = [] ->
  fst (get_chat_completion self request w) = inl IndexError
  /\ requests_sent (events (snd (get_chat_completion self request w)))
     = S (requests_sent (events w))
  /\ ticks (snd (get_chat_completion self request w)) = ticks w
  /\ length (heap (snd (get_chat_completion self request w)))
     = S (length (heap w))
  /\ heap (snd (get_chat_completion self request w))
       !! length (heap w)
     = Some (OutboundList
               (outbound_spec configured past (ChatRequest.message request)))
  /\ heap (snd (get_chat_completion self request w))
       !! ChatRequest.history request
     = Some (HistoryList past).
Proof.
  intros Hsvc Hreq Hreply Hnone.
  rewrite (get_chat_completion_run _ _ _ _ _ _ _ Hsvc Hreq). cbv zeta.
  rewrite Hreply, Hnone. simpl.
  split; [reflexivity |]. split.
  - unfold requests_sent. rewrite List.filter_app, length_app. simpl. lia.
  - split; [reflexivity |]. split.
    + rewrite length_app. simpl. lia.
    + split; [apply heap_lookup_new | now apply heap_lookup_old].
Qed.

Lemma empty_choices_raise_index_error_witness :
  service_at Chat.silent_w1 3 Demo.config (client_of Demo.info)
    Demo.config_list
  /\ request_in Chat.silent_w1 Chat.first_request []
  /\ remote Chat.silent_w1 (events Chat.silent_w1) (client_of Demo.info)
       (params_of Demo.config (outbound_spec Demo.config_list [] "Hi"))
     = RemoteReturn (ChatCompletion.mk [])
  /\ ChatCompletion.choices (ChatCompletion.mk []) = []
  /\ fst (get_chat_completion 3 Chat.first_request Chat.silent_w1)
     = inl IndexError
  /\ requests_sent
       (events (snd (get_chat_completion 3 Chat.first_request Chat.silent_w1)))
     = S (requests_sent (events Chat.silent_w1))
  /\ ticks (snd (get_chat_completion 3 Chat.first_request Chat.silent_w1))
     = ticks Chat.silent_w1
  /\ length (heap (snd (get_chat_completion 3 Chat.first_request
                          Chat.silent_w1)))
     = S (length (heap Chat.silent_w1))
  /\ heap (snd (get_chat_completion 3 Chat.first_request Chat.silent_w1))
       !! length (heap Chat.silent_w1)
     = Some (OutboundList (outbound_spec Demo.config_list [] "Hi"))
  /\ heap (snd (get_chat_completion 3 Chat.first_request Chat.silent_w1)) !! 1
     = Some (HistoryList []).
Proof.
  split; [split; reflexivity |]. split; [reflexivity |].
  split; [reflexivity |]. split; [reflexivity |].
  apply (empty_choices_raise_index_error Chat.silent_w1 3 Chat.first_request
           Demo.config (client_of Demo.info) Demo.config_list []
           (ChatCompletion.mk []));
    [split | | |]; reflexivity.
Defined.

(** X10: a call returns a response exactly when the endpoint replies
    with at least one choice; the response is then decided by the first
    choice alone, whatever the other choices are. *)
Theorem call_succeeds_iff_first_choice
    w self request config client configured past :
  service_at w self config client configured ->
  request_in w request past ->
  forall response,
    fst (get_chat_completion self request w) = inr response
    <-> exists first others,
          remote w (events w) client
            (params_of config
               (outbound_spec configured past (ChatRequest.message request)))
          = RemoteReturn (ChatCompletion.mk (first :: others))
          /\ response
             = ChatResponse.mk (Choice.message_content first)
                 (S (length (heap w))).
Proof.
  intros Hsvc Hreq response.
  rewrite (get_chat_completion_run _ _ _ _ _ _ _ Hsvc Hreq). cbv zeta.
  destruct (remote w _ _ _) as [kind | [choices]]; simpl.
  - split; [discriminate | intros (? & ? & ? & _); discriminate].
  - destruct choices as [| first others]; simpl.
    + split; [discriminate | intros (? & ? & ? & _); discriminate].
    + split.
      * intros [= <-]. now exists first, others.
      * intros (first' & others' & [= <- _] & ->). reflexivity.
Qed.

Lemma call_succeeds_iff_first_choice_witness :
  service_at Demo.w1 2 Demo.config Demo.client Demo.config_list
  /\ request_in Demo.w1 Demo.request Demo.past
  /\ forall response,
       fst (get_chat_completion 2 Demo.request Demo.w1) = inr response
       <-> exists first others,
             remote Demo.w1 (events Demo.w1) Demo.client
               (params_of Demo.config
                  (outbound_spec Demo.config_list Demo.past
                     (ChatRequest.message Demo.request)))
             = RemoteReturn (ChatCompletion.mk (first :: others))
             /\ response
                = ChatResponse.mk (Choice.message_content first)
                    (S (length (heap Demo.w1))).
Proof.
  split; [split; reflexivity |]. split; [reflexivity |].
  apply (call_succeeds_iff_first_choice Demo.w1 2 Demo.request Demo.config
           Demo.client Demo.config_list Demo.past); [split |]; reflexivity.
Defined.

(** ** Conversations *)

(** X11: two turns.  When a second request carries the history that the
    first response returned, the second call sends the whole first
    exchange before the new message, and the history it returns is the
    original history followed by both exchanges in order.  The list of
    the first response and the caller's original list are not changed by
    the second call. *)
Theorem conversation_accumulates
    w self config client configured past first second r1 w1 r2 w2 :
  service_at w self config client configured ->
  request_in w first past ->
  get_chat_completion self first w = (inr r1, w1) ->
  get_chat_completion self
    (ChatRequest.mk second (ChatResponse.history r1)) w1 = (inr r2, w2) ->
  exists turn items params,
    heap w1 !! ChatResponse.history r1 = Some (HistoryList turn)
    /\ heap w2 !! ChatResponse.history r1 = Some (HistoryList turn)
    /\ heap w2 !! ChatRequest.history first = Some (HistoryList past)
    /\ heap w2 !! ChatResponse.history r2 = Some (HistoryList items)
    /\ map said items
       = map said past
         ++ [ ("user", ChatRequest.message first);
              ("assistant", ChatResponse.message r1);
              ("user", second);
              ("assistant", ChatResponse.message r2) ]
    /\ last (events w2) = Some (EvChatCompletionsCreate client params)
    /\ CreateParams.messages params
       = system_comprehension configured
         ++ map pair_of past
         ++ [ Dict.mk "user" (ChatRequest.message first);
              Dict.mk "assistant" (ChatResponse.message r1);
              Dict.mk "user" second ].
Proof.
  intros Hsvc Hreq Hrun1 Hrun2.
  pose proof (get_chat_completion_frame w self first config client
                configured past) as Hframe1.
  rewrite Hrun1 in Hframe1. simpl in Hframe1.
  assert (Hsvc1 : service_at w1 self config client configured)
    by (destruct Hsvc; split; now apply Hframe1).
  destruct (get_chat_completion_success _ _ _ _ _ _ _ _ _ Hsvc Hreq Hrun1)
    as (reply1 & choice1 & others1 & _ & _ & Hr1 & Hw1).
  set (turn := past ++
         [ ChatbotMessage.mk "user" (ChatRequest.message first)
             (clock w (ticks w));
           ChatbotMessage.mk "assistant" (Choice.message_content choice1)
             (clock w (S (ticks w))) ]).
  assert (Hturn : heap w1 !! ChatResponse.history r1 = Some (HistoryList turn))
    by (rewrite Hr1, Hw1; apply replied_world_history).
  assert (Hreq2 : request_in w1
                    (ChatRequest.mk second (ChatResponse.history r1)) turn)
    by exact Hturn.
  pose proof (get_chat_completion_frame w1 self
                (ChatRequest.mk second (ChatResponse.history r1)) config
                client configured turn) as Hframe2.
  rewrite Hrun2 in Hframe2. simpl in Hframe2.
  pose proof (get_chat_completion_trace w1 self
                (ChatRequest.mk second (ChatResponse.history r1)) config
                client configured turn Hsvc1 Hreq2) as Htrace.
  rewrite Hrun2 in Htrace. simpl in Htrace.
  destruct (get_chat_completion_success _ _ _ _ _ _ _ _ _ Hsvc1 Hreq2 Hrun2)
    as (reply2 & choice2 & others2 & _ & _ & Hr2 & Hw2).
  eexists turn, _, _.
  split; [exact Hturn |].
  split; [now apply Hframe2 |].
  split; [apply Hframe2; [exact Hsvc1 | exact Hreq2 |]; now apply Hframe1 |].
  split; [rewrite Hr2, Hw2; apply replied_world_history |].
  split.
  - unfold turn. rewrite Hr1, Hr2. simpl.
    rewrite !map_app, <- app_assoc. reflexivity.
  - split; [rewrite Htrace; apply last_snoc |].
    simpl. unfold outbound_spec, turn.
    rewrite <- system_comprehension_filter, map_app, <- !app_assoc, Hr1.
    reflexivity.
Qed.

Lemma conversation_accumulates_witness :
  service_at Chat.w1 3 Demo.config (client_of Demo.info) Demo.config_list
  /\ request_in Chat.w1 Chat.first_request []
  /\ get_chat_completion 3 Chat.first_request Chat.w1
     = (inr (ChatResponse.mk "You said: Hi" 5), Chat.w2)
  /\ get_chat_completion 3 (ChatRequest.mk "And then?" 5) Chat.w2
     = (inr (ChatResponse.mk "You said: And then?" 7), Chat.w3)
  /\ exists turn items params,
       heap Chat.w2 !! 5 = Some (HistoryList turn)
       /\ heap Chat.w3 !! 5 = Some (HistoryList turn)
       /\ heap Chat.w3 !! 1 = Some (HistoryList [])
       /\ heap Chat.w3 !! 7 = Some (HistoryList items)
       /\ map said items
          = [] ++ [ ("user", "Hi"); ("assistant", "You said: Hi");
                    ("user", "And then?");
                    ("assistant", "You said: And then?") ]
       /\ last (events Chat.w3)
          = Some (EvChatCompletionsCreate (client_of Demo.info) params)
       /\ CreateParams.messages params
          = system_comprehension Demo.config_list
            ++ []
            ++ [ Dict.mk "user" "Hi"; Dict.mk "assistant" "You said: Hi";
                 Dict.mk "user" "And then?" ].
Proof.
  split; [split; reflexivity |]. split; [reflexivity |].
  split; [vm_compute; reflexivity |]. split; [vm_compute; reflexivity |].
  apply (conversation_accumulates Chat.w1 3 Demo.config (client_of Demo.info)
           Demo.config_list [] Chat.first_request "And then?"
           (ChatResponse.mk "You said: Hi" 5) Chat.w2
           (ChatResponse.mk "You said: And then?" 7) Chat.w3);
    [split | | |]; vm_compute; reflexivity.
Defined.

(** ** The system messages *)

Lemma system_comprehension_sublist msgs :
  sublist (map Dict.content (system_comprehension msgs))
          (map MessageConfiguration.content msgs).
Proof.
  induction msgs as [| msg rest IH]; simpl; [constructor |].
  destruct (String.eqb _ _); simpl; now constructor.
Qed.

(** X12: [_get_system_messages] returns a new list object each time: its
    reference was not in the store, so it is neither the configured list
    nor a list returned before.  The contents of its pairs are contents
    of configured messages, in the configured order and with repetitions
    kept; the configured list itself is left as it was, and nothing
    outside is touched. *)
Theorem system_messages_fresh_sublist w self config client configured :
  service_at w self config client configured ->
  exists l pairs,
    fst (_get_system_messages self w) = inr l
    /\ heap w !! l = None
    /\ heap (snd (_get_system_messages self w)) !! l
       = Some (OutboundList pairs)
    /\ sublist (map Dict.content pairs)
               (map MessageConfiguration.content configured)
    /\ heap (snd (_get_system_messages self w))
         !! LLMConfiguration.messages config
       = Some (ConfigMessageList configured)
    /\ events (snd (_get_system_messages self w)) = events w.
Proof.
  intros Hsvc.
  rewrite (_get_system_messages_run _ _ _ _ _ Hsvc). simpl.
  exists (length (heap w)), (system_comprehension configured).
  split; [reflexivity |].
  split; [now apply lookup_ge_None |].
  split; [apply heap_lookup_new |].
  split; [apply system_comprehension_sublist |].
  split; [| reflexivity].
  destruct Hsvc as [_ Hcfg]. now apply heap_lookup_old.
Qed.

Lemma system_messages_fresh_sublist_witness :
  service_at Demo.w1 2 Demo.config Demo.client Demo.config_list
  /\ exists l pairs,
       fst (_get_system_messages 2 Demo.w1) = inr l
       /\ heap Demo.w1 !! l = None
       /\ heap (snd (_get_system_messages 2 Demo.w1)) !! l
          = Some (OutboundList pairs)
       /\ sublist (map Dict.content pairs)
                  (map MessageConfiguration.content Demo.config_list)
       /\ heap (snd (_get_system_messages 2 Demo.w1))
            !! LLMConfiguration.messages Demo.config
          = Some (ConfigMessageList Demo.config_list)
       /\ events (snd (_get_system_messages 2 Demo.w1)) = events Demo.w1.
Proof.
  split; [split; reflexivity |].
  apply (system_messages_fresh_sublist Demo.w1 2 Demo.config Demo.client
           Demo.config_list). split; reflexivity.
Defined.
